(** * lazorkit-passkey-demo: the view layer, embedded and checked

    The repository is a thin React front end over a wallet SDK.  This
    development embeds its code:

    - [lib/config.ts]: the endpoint constants read from [process.env];
    - [components/TransferForm.tsx]: the [handleTransfer] handler and the
      render function of the form;
    - [components/ConnectButton.tsx]: [handleConnect], [handleDisconnect]
      and the render function of the button;
    - the provider wrapper, which hands the configuration to the SDK.

    JavaScript values are modelled only as far as the code inspects them.
    The SDK and [@solana/web3.js] are outside the repository: their entry
    points are fields of records ([Web3.Lib], [TransferForm.WalletHook],
    [ConnectButton.WalletHook]) over which every statement is quantified. *)

From Stdlib Require Import String Ascii ZArith QArith List Bool.
From stdpp Require Import base gmap strings list.
Import ListNotations.

Local Open Scope string_scope.
Local Open Scope Z_scope.

(* ===================================================================== *)
(** ** JavaScript values used by the components *)
(* ===================================================================== *)

Module Js.

(** An [Error] object, as far as the handlers look at it. *)
Record Error := { message : string }.

(** What a [throw] or a promise rejection can carry: an [Error] instance
    or any other value. *)
Inductive Value :=
| VUndefined
| VNull
| VBool (b : bool)
| VString (s : string)
| VError (e : Error).

(** [v instanceof Error ? v.message : fallback] *)
Definition message_or (v : Value) (fallback : string) : string :=
  match v with
  | VError e => message e
  | _ => fallback
  end.

(** Truthiness of a string: only the empty string is falsy. *)
Definition truthy (s : string) : bool :=
  match s with
  | EmptyString => false
  | String _ _ => true
  end.

(** [a || b] where [a] is a string or undefined and [b] a string. *)
Definition or_else (a : option string) (b : string) : string :=
  match a with
  | Some s => if truthy s then s else b
  | None => b
  end.

(** [s.includes(t)] *)
Fixpoint includes (t s : string) : bool :=
  String.prefix t s ||
  match s with
  | EmptyString => false
  | String _ s' => includes t s'
  end.

(** [s.slice(0, n)] for [n >= 0]. *)
Definition slice_to (n : nat) (s : string) : string :=
  String.substring 0 n s.

(** [s.slice(-n)] for [n > 0]: the last [n] characters, the whole string
    when it is shorter. *)
Definition slice_last (n : nat) (s : string) : string :=
  String.substring (String.length s - n) n s.

(** *** Numbers

    A number is NaN, an infinity or a finite value.  Finite values are
    kept as exact rationals: rounding to binary64, overflow to an
    infinity and the sign of zero are not modelled, and nothing below
    depends on them. *)
Inductive number :=
| NaN
| Infinity (negative : bool)
| Finite (q : Q).

Definition Qneg_b (q : Q) : bool := (Qnum q <? 0)%Z.
Definition Qzero_b (q : Q) : bool := (Qnum q =? 0)%Z.

(** [a * b] on numbers. *)
Definition mul (a b : number) : number :=
  match a, b with
  | NaN, _ | _, NaN => NaN
  | Infinity s, Infinity t => Infinity (xorb s t)
  | Infinity s, Finite q | Finite q, Infinity s =>
      if Qzero_b q then NaN else Infinity (xorb s (Qneg_b q))
  | Finite p, Finite q => Finite (Qred (p * q))
  end.

(** [a > 0] *)
Definition is_positive (a : number) : bool :=
  match a with
  | NaN => false
  | Infinity s => negb s
  | Finite q => (0 <? Qnum q)%Z
  end.

(** *** [parseFloat]

    Leading white space is skipped, then the longest prefix that is a
    decimal literal is read: an optional sign, then [Infinity] or digits
    with an optional fraction and an optional exponent.  No such prefix
    gives NaN.  White space is the ASCII part of the language's set. *)

Definition is_digit (c : ascii) : bool :=
  let n := nat_of_ascii c in (48 <=? n)%nat && (n <=? 57)%nat.

Definition digit_value (c : ascii) : Z :=
  Z.of_nat (nat_of_ascii c - 48).

Definition is_space (c : ascii) : bool :=
  let n := nat_of_ascii c in
  (n =? 32)%nat || ((9 <=? n)%nat && (n <=? 13)%nat).

Fixpoint skip_space (s : string) : string :=
  match s with
  | String c s' => if is_space c then skip_space s' else s
  | EmptyString => s
  end.

(** Reads a run of digits: its value on top of [acc], how many digits
    were read on top of [n], and the rest of the string. *)
Fixpoint read_digits (s : string) (acc : Z) (n : nat) : Z * nat * string :=
  match s with
  | String c s' =>
      if is_digit c then read_digits s' (acc * 10 + digit_value c) (S n)
      else (acc, n, s)
  | EmptyString => (acc, n, s)
  end.

(** An optional sign: whether it is a minus, and the rest. *)
Definition read_sign (s : string) : bool * string :=
  match s with
  | String "-" s' => (true, s')
  | String "+" s' => (false, s')
  | _ => (false, s)
  end.

(** The exponent part, [0] when there is none or when no digit follows
    the [e]. *)
Definition read_exponent (s : string) : Z :=
  match s with
  | String c s' =>
      if (Ascii.eqb c "e" || Ascii.eqb c "E")%bool then
        let '(neg, s'') := read_sign s' in
        let '(e, n, _) := read_digits s'' 0 0 in
        match n with
        | O => 0
        | S _ => if neg then - e else e
        end
      else 0
  | EmptyString => 0
  end.

(** [m * 10^e] as a rational. *)
Definition scale10 (m e : Z) : Q :=
  if (0 <=? e)%Z then Qmake (m * 10 ^ e) 1
  else Qred (Qmake m (Z.to_pos (10 ^ (- e)))).

Definition parseFloat (input : string) : number :=
  let '(neg, s) := read_sign (skip_space input) in
  if String.prefix "Infinity" s then Infinity neg
  else
    let '(i, ni, s1) := read_digits s 0 0 in
    let '(m, nf, s2) :=
      match s1 with
      | String "." r => let '(m, nf, s2) := read_digits r i 0 in (m, nf, s2)
      | _ => (i, O, s1)
      end in
    match (ni + nf)%nat with
    | O => NaN
    | S _ =>
        let e := read_exponent s2 in
        Finite (scale10 (if neg then - m else m) (e - Z.of_nat nf))
    end.

End Js.

(* ===================================================================== *)
(** ** lib/config.ts *)
(* ===================================================================== *)

Module Config.

(** [process.env]: a variable is absent or bound to a string. *)
Abbreviation Env := (gmap string string).

Record PaymasterConfig := { paymasterUrl : string }.

Record LazorkitConfig := {
  rpcUrl : string;
  portalUrl : string;
  paymasterConfig : PaymasterConfig
}.

Definition LAZORKIT_CONFIG (env : Env) : LazorkitConfig :=
  {| rpcUrl :=
       Js.or_else (env !! "NEXT_PUBLIC_RPC_URL") "https://api.devnet.solana.com";
     portalUrl :=
       Js.or_else (env !! "NEXT_PUBLIC_PORTAL_URL") "https://portal.lazor.sh";
     paymasterConfig :=
       {| paymasterUrl :=
            Js.or_else (env !! "NEXT_PUBLIC_PAYMASTER_URL")
                       "https://kora.devnet.lazorkit.com" |} |}.

Record Network := {
  net_rpcUrl : string;
  net_portalUrl : string;
  net_paymasterUrl : string;
  net_explorerUrl : string
}.

Definition NETWORK_CONFIG_devnet : Network :=
  {| net_rpcUrl := "https://api.devnet.solana.com";
     net_portalUrl := "https://portal.lazor.sh";
     net_paymasterUrl := "https://kora.devnet.lazorkit.com";
     net_explorerUrl := "https://explorer.solana.com?cluster=devnet" |}.

Definition NETWORK_CONFIG_mainnet : Network :=
  {| net_rpcUrl := "https://api.mainnet-beta.solana.com";
     net_portalUrl := "https://portal.lazor.sh";
     net_paymasterUrl := "https://kora.mainnet.lazorkit.com";
     net_explorerUrl := "https://explorer.solana.com" |}.

(** The claim of the specification, read literally: the variable's value
    whenever it is bound, the literal otherwise. *)
Definition bound_or (o : option string) (fallback : string) : string :=
  match o with
  | Some v => v
  | None => fallback
  end.

End Config.

(* ===================================================================== *)
(** ** The part of [@solana/web3.js] the form uses *)
(* ===================================================================== *)

Module Web3.

(** [LAMPORTS_PER_SOL] *)
Definition LAMPORTS_PER_SOL : Js.number := Js.Finite (1000000000 # 1).

(** A public key, identified by its base-58 text. *)
Record PublicKey := { toBase58 : string }.

(** The RPC connection object handed out by the wallet hook. *)
Record Connection := { rpcEndpoint : string }.

(** The argument of [SystemProgram.transfer]. *)
Record TransferParams := {
  fromPubkey : PublicKey;
  toPubkey : PublicKey;
  lamports : Js.number
}.

(** An instruction of the system program: the library's encoding of a
    value transfer is kept as the parameters it was built from. *)
Inductive TransactionInstruction :=
| SystemTransfer (p : TransferParams).

(** [new Transaction()] is the empty list, [.add(i)] appends. *)
Definition Transaction := list TransactionInstruction.
Definition new_Transaction : Transaction := [].
Definition add (t : Transaction) (i : TransactionInstruction) : Transaction :=
  (t ++ [i])%list.

(** The two library entry points that inspect their argument.  Both may
    throw an [Error]; what they accept is the library's business. *)
Record Lib := {
  new_PublicKey : string -> Js.Error + PublicKey;
  SystemProgram_transfer : TransferParams -> Js.Error + TransactionInstruction
}.

(** *** A reference library, used to run the handlers

    [new PublicKey(s)] accepts the base-58 texts that decode to 32
    bytes; [SystemProgram.transfer] builds the instruction from any
    parameters, which is more than the published library does: that one
    refuses lamports that are not whole numbers.  What depends on the
    library's answer is therefore stated for every [Lib], and this one is
    run only on whole, non-negative amounts. *)

Definition base58_alphabet : string :=
  "123456789ABCDEFGHJKLMNPQRSTUVWXYZabcdefghijkmnopqrstuvwxyz".

Fixpoint index_of (c : ascii) (alphabet : string) (i : Z) : option Z :=
  match alphabet with
  | EmptyString => None
  | String a rest => if Ascii.eqb a c then Some i else index_of c rest (i + 1)
  end.

(** The number a base-58 text denotes, [None] on a foreign character. *)
Fixpoint base58_value (s : string) (acc : Z) : option Z :=
  match s with
  | EmptyString => Some acc
  | String c s' =>
      match index_of c base58_alphabet 0 with
      | Some d => base58_value s' (acc * 58 + d)
      | None => None
      end
  end.

(** Leading ["1"] characters stand for leading zero bytes. *)
Fixpoint leading_ones (s : string) : nat :=
  match s with
  | String "1" s' => S (leading_ones s')
  | _ => O
  end.

(** Number of bytes of the big-endian representation of [n >= 0]. *)
Definition byte_length (n : Z) : nat :=
  Z.to_nat ((Z.log2_up (n + 1) + 7) / 8).

Definition base58_decoded_length (s : string) : option nat :=
  match base58_value s 0 with
  | Some n => Some (leading_ones s + byte_length n)%nat
  | None => None
  end.

Definition reference_new_PublicKey (s : string) : Js.Error + PublicKey :=
  match base58_decoded_length s with
  | None => inl {| Js.message := "Non-base58 character" |}
  | Some n =>
      if (n =? 32)%nat then inr {| toBase58 := s |}
      else inl {| Js.message := "Invalid public key input" |}
  end.

Definition reference : Lib :=
  {| new_PublicKey := reference_new_PublicKey;
     SystemProgram_transfer := fun p => inr (SystemTransfer p) |}.

End Web3.

(* ===================================================================== *)
(** ** What a component renders *)
(* ===================================================================== *)

Module React.

(** A property of an element: a string, a boolean, or an event handler
    (named by the source expression bound to it). *)
Inductive Attr :=
| AttrString (name value : string)
| AttrBool (name : string) (b : bool)
| AttrHandler (name handler : string).

#[warnings="-register-all"] Inductive Node :=
| Text (s : string)
| Element (tag : string) (attrs : list Attr) (children : list Node).

Definition className (c : string) : Attr := AttrString "className" c.

(** Number of elements with tag [t] in a tree. *)
Fixpoint count_tag (t : string) (n : Node) : nat :=
  match n with
  | Text _ => O
  | Element tag _ children =>
      ((if String.eqb tag t then 1 else 0) +
       (fix count_all (l : list Node) : nat :=
          match l with
          | [] => O
          | c :: l' => count_tag t c + count_all l'
          end) children)%nat
  end.

(** The texts of a tree, in document order. *)
Fixpoint texts (n : Node) : list string :=
  match n with
  | Text s => [s]
  | Element _ _ children =>
      (fix texts_all (l : list Node) : list string :=
         match l with
         | [] => []
         | c :: l' => (texts c ++ texts_all l')%list
         end) children
  end.

End React.

(* ===================================================================== *)
(** ** Handlers as programs over the component's state

    A handler runs against a world: the state cells of the component and
    the log of what it did (state setters, SDK calls, console output), in
    order.  It completes normally, throws, or stays suspended on a promise
    that never settles. *)
(* ===================================================================== *)

Module Run.

(** How an awaited promise ends. *)
Inductive Promise (A : Type) :=
| Resolves (a : A)
| Rejects (reason : Js.Value)
| NeverSettles.
Arguments Resolves {A} a.
Arguments Rejects {A} reason.
Arguments NeverSettles {A}.

Inductive Completion (A : Type) :=
| Normal (a : A)
| Throws (v : Js.Value)
| Suspended.
Arguments Normal {A} a.
Arguments Throws {A} v.
Arguments Suspended {A}.

Section Monad.
Context {W : Type}.

Definition M (A : Type) : Type := W -> Completion A * W.

Definition ret {A} (a : A) : M A := fun w => (Normal a, w).

Definition bind {A B} (c : M A) (k : A -> M B) : M B :=
  fun w =>
    match c w with
    | (Normal a, w') => k a w'
    | (Throws v, w') => (Throws v, w')
    | (Suspended, w') => (Suspended, w')
    end.

(** [await p] *)
Definition await {A} (p : Promise A) : M A :=
  fun w =>
    match p with
    | Resolves a => (Normal a, w)
    | Rejects v => (Throws v, w)
    | NeverSettles => (Suspended, w)
    end.

(** The value or the throw of a library call that may throw an
    [Error]. *)
Definition call {A} (r : Js.Error + A) : M A :=
  fun w =>
    match r with
    | inr a => (Normal a, w)
    | inl e => (Throws (Js.VError e), w)
    end.

(** A synchronous SDK call: it returns or throws any value. *)
Definition invoke {A} (r : Js.Value + A) : M A :=
  fun w =>
    match r with
    | inr a => (Normal a, w)
    | inl v => (Throws v, w)
    end.

(** [c] followed by the [finally] block [fin]: the completion of [c]
    stands unless [fin] itself does not complete normally. *)
Definition and_finally {A} (c : M A) (fin : M unit) : M A :=
  fun w =>
    match c w with
    | (Suspended, w') => (Suspended, w')
    | (r, w') =>
        match fin w' with
        | (Normal _, w'') => (r, w'')
        | (Throws v, w'') => (Throws v, w'')
        | (Suspended, w'') => (Suspended, w'')
        end
    end.

(** [try { body } catch (e) { handler e }] *)
Definition try_catch {A} (body : M A) (handler : Js.Value -> M A) : M A :=
  fun w =>
    match body w with
    | (Throws v, w') => handler v w'
    | r => r
    end.

(** [try { body } catch (e) { handler e } finally { fin }] *)
Definition try_catch_finally {A}
    (body : M A) (handler : Js.Value -> M A) (fin : M unit) : M A :=
  and_finally (try_catch body handler) fin.

End Monad.

Arguments M : clear implicits.

#[global] Instance M_ret {W} : MRet (M W) := @ret W.
#[global] Instance M_bind {W} : MBind (M W) := fun A B k c => bind c k.

End Run.

(* ===================================================================== *)
(** ** components/TransferForm.tsx *)
(* ===================================================================== *)

Module TransferForm.
Import Web3 Run React.

(** An options object of an SDK send call, as the tutorials pass it. *)
Record TransactionOptions := { feeToken : option string }.

(** One argument of a call to the SDK's send function. *)
Inductive Arg :=
| ArgTransaction (t : Transaction)
| ArgConnection (c : Connection)
| ArgOptions (o : TransactionOptions).

(** The fee-token option carried by the arguments of a send call. *)
Fixpoint fee_token (args : list Arg) : option string :=
  match args with
  | [] => None
  | ArgOptions o :: rest =>
      match feeToken o with
      | Some t => Some t
      | None => fee_token rest
      end
  | _ :: rest => fee_token rest
  end.

(** What [useWallet()] hands to the component. *)
Record WalletHook := {
  publicKey : option PublicKey;
  sendTransaction : list Arg -> Promise string;
  connection : option Connection
}.

(** The four [useState] cells. *)
Record State := {
  recipient : string;
  amount : string;
  status : string;
  loading : bool
}.

Definition initial : State :=
  {| recipient := ""; amount := ""; status := ""; loading := false |}.

Inductive Event :=
| SetRecipient (s : string)
| SetAmount (s : string)
| SetStatus (s : string)
| SetLoading (b : bool)
| CallSendTransaction (args : list Arg)
| ConsoleError (label : string) (v : Js.Value).

Record World := { ui : State; log : list Event }.

Definition record (e : Event) (st : State) (w : World) : World :=
  {| ui := st; log := log w ++ [e] |}.

Definition setRecipient (s : string) : M World unit :=
  fun w =>
    (Normal tt,
     record (SetRecipient s)
       {| recipient := s; amount := amount (ui w);
          status := status (ui w); loading := loading (ui w) |} w).

Definition setAmount (s : string) : M World unit :=
  fun w =>
    (Normal tt,
     record (SetAmount s)
       {| recipient := recipient (ui w); amount := s;
          status := status (ui w); loading := loading (ui w) |} w).

Definition setStatus (s : string) : M World unit :=
  fun w =>
    (Normal tt,
     record (SetStatus s)
       {| recipient := recipient (ui w); amount := amount (ui w);
          status := s; loading := loading (ui w) |} w).

Definition setLoading (b : bool) : M World unit :=
  fun w =>
    (Normal tt,
     record (SetLoading b)
       {| recipient := recipient (ui w); amount := amount (ui w);
          status := status (ui w); loading := b |} w).

Definition console_error (label : string) (v : Js.Value) : M World unit :=
  fun w => (Normal tt, record (ConsoleError label v) (ui w) w).

(** The call [sendTransaction(args...)]: logged, then its promise. *)
Definition call_sendTransaction (hook : WalletHook) (args : list Arg)
  : M World (Promise string) :=
  fun w =>
    (Normal (sendTransaction hook args),
     record (CallSendTransaction args) (ui w) w).

(** [handleTransfer], closed over the hook and over the field values
    [form] of the render it was created in. *)
Definition handleTransfer (lib : Lib) (hook : WalletHook) (form : State)
  : M World unit :=
  match publicKey hook, connection hook with
  | Some publicKey, Some connection =>
      try_catch_finally
        (setLoading true;;
         setStatus "Creating transaction...";;
         recipientPubkey ← call (new_PublicKey lib (recipient form));
         let lamports := Js.mul (Js.parseFloat (amount form)) LAMPORTS_PER_SOL in
         instruction ←
           call (SystemProgram_transfer lib
                   {| fromPubkey := publicKey;
                      toPubkey := recipientPubkey;
                      lamports := lamports |});
         let transaction := add new_Transaction instruction in
         setStatus "Sending transaction...";;
         promise ←
           call_sendTransaction hook
             [ArgTransaction transaction; ArgConnection connection];
         signature ← await promise;
         setStatus ("Success! Transaction: " +:+ signature);;
         setRecipient "";;
         setAmount "")
        (fun error =>
           console_error "Transfer error:" error;;
           setStatus ("Error: " +:+ Js.message_or error "Unknown error"))
        (setLoading false)
  | _, _ => setStatus "Please connect your wallet first"
  end.

(** The [disabled] property of the send button. *)
Definition send_disabled (st : State) : bool :=
  loading st || negb (Js.truthy (recipient st)) || negb (Js.truthy (amount st)).

Definition status_class (s : string) : string :=
  "p-3 rounded-lg " +:+
  (if Js.includes "Success" s then "bg-green-900/20 text-green-400"
   else if Js.includes "Error" s then "bg-red-900/20 text-red-400"
   else "bg-blue-900/20 text-blue-400").

Definition input_class : string :=
  "w-full px-4 py-2 bg-gray-800 border border-gray-700 rounded-lg focus:outline-none focus:border-blue-500".

Definition placeholder_view : Node :=
  Element "div" [className "p-6 border border-gray-700 rounded-lg"]
    [Element "p" [className "text-gray-400"]
       [Text "Connect your wallet to send transfers"]].

Definition form_view (st : State) : Node :=
  Element "div" [className "p-6 border border-gray-700 rounded-lg space-y-4"]
    [Element "h2" [className "text-xl font-semibold"] [Text "Send SOL (Gasless)"];
     Element "div" []
       [Element "label" [className "block text-sm font-medium mb-2"]
          [Text "Recipient Address"];
        Element "input"
          [AttrString "type" "text";
           AttrString "value" (recipient st);
           AttrHandler "onChange" "(e) => setRecipient(e.target.value)";
           AttrString "placeholder" "Solana address...";
           className input_class;
           AttrBool "disabled" (loading st)] []];
     Element "div" []
       [Element "label" [className "block text-sm font-medium mb-2"]
          [Text "Amount (SOL)"];
        Element "input"
          [AttrString "type" "number";
           AttrString "value" (amount st);
           AttrHandler "onChange" "(e) => setAmount(e.target.value)";
           AttrString "placeholder" "0.1";
           AttrString "step" "0.01";
           AttrString "min" "0";
           className input_class;
           AttrBool "disabled" (loading st)] []];
     Element "button"
       [AttrHandler "onClick" "handleTransfer";
        AttrBool "disabled" (send_disabled st);
        className "w-full px-4 py-2 bg-blue-600 hover:bg-blue-700 disabled:bg-gray-600 disabled:cursor-not-allowed rounded-lg font-medium transition-colors"]
       [Text (if loading st then "Processing..." else "Send Transfer")];
     (if Js.truthy (status st) then
        Element "div" [className (status_class (status st))]
          [Element "p" [className "text-sm break-all"] [Text (status st)]]
      else Text (status st))].

(** The component's return value. *)
Definition render (hook : WalletHook) (st : State) : Node :=
  match publicKey hook with
  | None => placeholder_view
  | Some _ => form_view st
  end.

(** *** Reading a log *)

Definition send_calls (l : list Event) : list (list Arg) :=
  omap (fun e => match e with CallSendTransaction a => Some a | _ => None end) l.

Definition is_send (e : Event) : bool :=
  match e with CallSendTransaction _ => true | _ => false end.

(** The state after one logged event. *)
Definition apply_event (e : Event) (st : State) : State :=
  match e with
  | SetRecipient s =>
      {| recipient := s; amount := amount st;
         status := status st; loading := loading st |}
  | SetAmount s =>
      {| recipient := recipient st; amount := s;
         status := status st; loading := loading st |}
  | SetStatus s =>
      {| recipient := recipient st; amount := amount st;
         status := s; loading := loading st |}
  | SetLoading b =>
      {| recipient := recipient st; amount := amount st;
         status := status st; loading := b |}
  | CallSendTransaction _ | ConsoleError _ _ => st
  end.

Definition replay (st : State) (l : list Event) : State :=
  fold_left (fun st e => apply_event e st) l st.

(** Replaying the log from [st], the loading flag is set at every send
    call. *)
Fixpoint loading_at_sends (st : State) (l : list Event) : bool :=
  match l with
  | [] => true
  | e :: l' =>
      (if is_send e then loading st else true)
      && loading_at_sends (apply_event e st) l'
  end.

(** One invocation of the handler, on the state [st0], with a fresh log. *)
Definition run (lib : Lib) (hook : WalletHook) (form st0 : State)
  : Completion unit * World :=
  handleTransfer lib hook form {| ui := st0; log := [] |}.

(** A submission: the handler of a render, run on that render's state. *)
Definition submit (lib : Lib) (hook : WalletHook) (form : State)
  : Completion unit * World :=
  run lib hook form form.

End TransferForm.

(* ===================================================================== *)
(** ** components/ConnectButton.tsx *)
(* ===================================================================== *)

Module ConnectButton.
Import Run React.

Record WalletInfo := { smartWallet : string }.

(** What [useWallet()] hands to the component.  [connect] is the promise
    returned by [connect()]; [disconnect] is what the call [disconnect()]
    does where it is made: it returns (its value is dropped, never
    awaited) or it throws. *)
Record WalletHook := {
  connect : Promise unit;
  disconnect : Js.Value + unit;
  isConnected : bool;
  isConnecting : bool;
  wallet : option WalletInfo
}.

(** The [useState<string | null>] cell. *)
Record State := { error : option string }.

Inductive Event :=
| SetError (e : option string)
| CallConnect
| CallDisconnect
| ConsoleError (label : string) (v : Js.Value).

Record World := { ui : State; log : list Event }.

Definition record (e : Event) (st : State) (w : World) : World :=
  {| ui := st; log := log w ++ [e] |}.

Definition setError (e : option string) : M World unit :=
  fun w => (Normal tt, record (SetError e) {| error := e |} w).

Definition console_error (label : string) (v : Js.Value) : M World unit :=
  fun w => (Normal tt, record (ConsoleError label v) (ui w) w).

Definition call_connect (hook : WalletHook) : M World (Promise unit) :=
  fun w => (Normal (connect hook), record CallConnect (ui w) w).

Definition call_disconnect (hook : WalletHook) : M World unit :=
  fun w => invoke (disconnect hook) (record CallDisconnect (ui w) w).

Definition handleConnect (hook : WalletHook) : M World unit :=
  try_catch
    (setError None;;
     promise ← call_connect hook;
     await promise)
    (fun err =>
       console_error "Connection error:" err;;
       setError (Some (Js.message_or err "Failed to connect wallet"))).

Definition handleDisconnect (hook : WalletHook) : M World unit :=
  try_catch
    (call_disconnect hook;;
     setError None)
    (fun err =>
       console_error "Disconnection error:" err).

Definition connected_view (w : WalletInfo) : Node :=
  Element "div" [className "flex flex-col items-center gap-3"]
    [Element "div"
       [className "flex items-center gap-2 px-4 py-2 bg-green-50 border border-green-200 rounded-lg"]
       [Element "div" [className "w-2 h-2 bg-green-500 rounded-full animate-pulse"] [];
        Element "span" [className "text-sm font-medium text-green-800"]
          [Text (Js.slice_to 4 (smartWallet w));
           Text "...";
           Text (Js.slice_last 4 (smartWallet w))]];
     Element "button"
       [AttrHandler "onClick" "handleDisconnect";
        className "px-6 py-2 text-sm font-medium text-red-700 bg-red-50 border border-red-200 rounded-lg hover:bg-red-100 transition-colors"]
       [Text "Disconnect Wallet"]].

Definition spinner : Node :=
  Element "span" [className "flex items-center gap-2"]
    [Element "svg"
       [className "w-5 h-5 animate-spin"; AttrString "fill" "none";
        AttrString "viewBox" "0 0 24 24"]
       [Element "circle"
          [className "opacity-25"; AttrString "cx" "12"; AttrString "cy" "12";
           AttrString "r" "10"; AttrString "stroke" "currentColor";
           AttrString "strokeWidth" "4"] [];
        Element "path"
          [className "opacity-75"; AttrString "fill" "currentColor";
           AttrString "d" "M4 12a8 8 0 018-8V0C5.373 0 0 5.373 0 12h4zm2 5.291A7.962 7.962 0 014 12H0c0 3.042 1.135 5.824 3 7.938l3-2.647z"]
          []];
     Text "Connecting..."].

Definition key_icon : Node :=
  Element "span" [className "flex items-center gap-2"]
    [Element "svg"
       [className "w-5 h-5"; AttrString "fill" "none";
        AttrString "stroke" "currentColor"; AttrString "viewBox" "0 0 24 24"]
       [Element "path"
          [AttrString "strokeLinecap" "round"; AttrString "strokeLinejoin" "round";
           AttrString "strokeWidth" "2";
           AttrString "d" "M15 7a2 2 0 012 2m4 0a6 6 0 01-7.743 5.743L11 17H9v2H7v2H4a1 1 0 01-1-1v-2.586a1 1 0 01.293-.707l5.964-5.964A6 6 0 1121 9z"]
          []];
     Text "Connect with Passkey"].

(** [{error && (...)}]: the banner for a truthy error, else the falsy
    value itself, which shows nothing. *)
Definition error_banner (e : option string) : Node :=
  match e with
  | Some msg =>
      if Js.truthy msg then
        Element "div"
          [className "max-w-md p-3 text-sm text-red-800 bg-red-50 border border-red-200 rounded-lg"]
          [Element "p" [className "font-semibold"] [Text "Connection Failed"];
           Element "p" [className "mt-1 text-xs"] [Text msg]]
      else Text msg
  | None => Text ""
  end.

Definition disconnected_view (hook : WalletHook) (st : State) : Node :=
  Element "div" [className "flex flex-col items-center gap-3"]
    [Element "button"
       [AttrHandler "onClick" "handleConnect";
        AttrBool "disabled" (isConnecting hook);
        className "px-8 py-3 text-white bg-blue-600 rounded-lg hover:bg-blue-700 disabled:opacity-50 disabled:cursor-not-allowed transition-all font-medium shadow-lg hover:shadow-xl"]
       [if isConnecting hook then spinner else key_icon];
     error_banner (error st);
     Element "p" [className "text-xs text-gray-500 max-w-xs text-center"]
       [Text "No wallet extension needed. Just use your device's biometrics (Face ID, Touch ID, or Windows Hello)"]].

Definition render (hook : WalletHook) (st : State) : Node :=
  match isConnected hook, wallet hook with
  | true, Some w => connected_view w
  | _, _ => disconnected_view hook st
  end.

Definition set_error_calls (l : list Event) : list (option string) :=
  omap (fun e => match e with SetError a => Some a | _ => None end) l.

End ConnectButton.

(* ===================================================================== *)
(** ** Sample hooks and forms *)
(* ===================================================================== *)

Module Samples.
Import Web3 Run.

Definition payer : PublicKey :=
  {| toBase58 := "So11111111111111111111111111111111111111112" |}.

Definition system_program : PublicKey :=
  {| toBase58 := "11111111111111111111111111111111" |}.

Definition devnet : Connection :=
  {| rpcEndpoint := "https://api.devnet.solana.com" |}.

Definition connected (answer : Promise string) : TransferForm.WalletHook :=
  {| TransferForm.publicKey := Some payer;
     TransferForm.sendTransaction := fun _ => answer;
     TransferForm.connection := Some devnet |}.

Definition disconnected : TransferForm.WalletHook :=
  {| TransferForm.publicKey := None;
     TransferForm.sendTransaction := fun _ => NeverSettles;
     TransferForm.connection := None |}.

Definition user_rejected : Js.Value :=
  Js.VError {| Js.message := "User rejected the request" |}.

Definition tenth_of_a_sol : TransferForm.State :=
  {| TransferForm.recipient := "11111111111111111111111111111111";
     TransferForm.amount := "0.1";
     TransferForm.status := "";
     TransferForm.loading := false |}.

Definition bad_recipient : TransferForm.State :=
  {| TransferForm.recipient := "not a key";
     TransferForm.amount := "0.1";
     TransferForm.status := "";
     TransferForm.loading := false |}.

Definition amount_abc : TransferForm.State :=
  {| TransferForm.recipient := "11111111111111111111111111111111";
     TransferForm.amount := "abc";
     TransferForm.status := "";
     TransferForm.loading := false |}.

Definition in_flight : TransferForm.State :=
  {| TransferForm.recipient := "11111111111111111111111111111111";
     TransferForm.amount := "0.1";
     TransferForm.status := "Sending transaction...";
     TransferForm.loading := true |}.

(** The transaction [handleTransfer] builds from [tenth_of_a_sol]. *)
Definition tenth_transaction : Transaction :=
  [SystemTransfer
     {| fromPubkey := payer;
        toPubkey := system_program;
        lamports := Js.Finite (100000000 # 1) |}].

Definition nan_instruction : TransactionInstruction :=
  SystemTransfer
    {| fromPubkey := payer; toPubkey := system_program; lamports := Js.NaN |}.

Definition button (d : Js.Value + unit) : ConnectButton.WalletHook :=
  {| ConnectButton.connect := Resolves tt;
     ConnectButton.disconnect := d;
     ConnectButton.isConnected := true;
     ConnectButton.isConnecting := false;
     ConnectButton.wallet :=
       Some {| ConnectButton.smartWallet :=
                 "So11111111111111111111111111111111111111112" |} |}.

End Samples.

(* ===================================================================== *)
(** ** Reading a rendered tree *)
(* ===================================================================== *)

Module Inspect.
Import React.

Definition bool_attr (name : string) (a : Attr) : option bool :=
  match a with
  | AttrBool n b => if String.eqb n name then Some b else None
  | _ => None
  end.

Definition string_attr (name : string) (a : Attr) : option string :=
  match a with
  | AttrString n v => if String.eqb n name then Some v else None
  | _ => None
  end.

Definition handler_attr (name : string) (a : Attr) : option string :=
  match a with
  | AttrHandler n h => if String.eqb n name then Some h else None
  | _ => None
  end.

(** What [pick] finds in the attributes of the elements with tag [t], in
    document order. *)
Fixpoint collect {A} (pick : Attr -> option A) (t : string) (n : Node)
  : list A :=
  match n with
  | Text _ => []
  | Element tag attrs children =>
      ((if String.eqb tag t then omap pick attrs else []) ++
       (fix collect_all (l : list Node) : list A :=
          match l with
          | [] => []
          | c :: l' => collect pick t c ++ collect_all l'
          end) children)%list
  end.

Definition disabled_of (t : string) (n : Node) : list bool :=
  collect (bool_attr "disabled") t n.

Definition value_of (t : string) (n : Node) : list string :=
  collect (string_attr "value") t n.

Definition class_of (t : string) (n : Node) : list string :=
  collect (string_attr "className") t n.

Definition onClick_of (t : string) (n : Node) : list string :=
  collect (handler_attr "onClick") t n.

(** Whether some text of the tree is exactly [t]. *)
Definition has_text (t : string) (n : Node) : bool :=
  existsb (String.eqb t) (texts n).

End Inspect.

(* ===================================================================== *)
(** ** The provider wrapper *)
(* ===================================================================== *)

Module Providers.
Import React.

(** The properties [LazorkitProvider] is rendered with. *)
Record LazorkitProviderProps := {
  rpcUrl : string;
  portalUrl : string;
  paymasterConfig : Config.PaymasterConfig;
  children : list Node
}.

Definition Providers (env : gmap string string) (children : list Node)
  : LazorkitProviderProps :=
  {| rpcUrl := Config.rpcUrl (Config.LAZORKIT_CONFIG env);
     portalUrl := Config.portalUrl (Config.LAZORKIT_CONFIG env);
     paymasterConfig := Config.paymasterConfig (Config.LAZORKIT_CONFIG env);
     children := children |}.

End Providers.

(* ===================================================================== *)
(** ** Reading the log of the transfer form *)
(* ===================================================================== *)

Module TransferLog.
Import TransferForm.

(** The [console.error] calls of a log: label and value. *)
Definition console_errors (l : list Event) : list (string * Js.Value) :=
  omap (fun e => match e with ConsoleError a v => Some (a, v) | _ => None end) l.

Definition green : string := "bg-green-900/20 text-green-400".
Definition red : string := "bg-red-900/20 text-red-400".
Definition blue : string := "bg-blue-900/20 text-blue-400".

End TransferLog.

(* ===================================================================== *)
(** ** More sample hooks, for the statements on the remaining paths *)
(* ===================================================================== *)

Module MoreSamples.
Import Web3 Run.

(** A library whose [SystemProgram.transfer] takes whole, non-negative
    lamports only, as a conversion of the amount to an unsigned integer
    would. *)
Definition whole_lamports (n : Js.number) : bool :=
  match n with
  | Js.Finite q => (0 <=? Qnum q)%Z && Pos.eqb (Qden q) 1
  | _ => false
  end.

Definition strict : Lib :=
  {| new_PublicKey := reference_new_PublicKey;
     SystemProgram_transfer := fun p =>
       if whole_lamports (lamports p) then inr (SystemTransfer p)
       else inl {| Js.message := "The number cannot be converted to a BigInt because it is not an integer" |} |}.

(** A hook with a public key and no connection. *)
Definition no_connection : TransferForm.WalletHook :=
  {| TransferForm.publicKey := Some Samples.payer;
     TransferForm.sendTransaction := fun _ => NeverSettles;
     TransferForm.connection := None |}.

Definition connecting (answer : Promise unit) : ConnectButton.WalletHook :=
  {| ConnectButton.connect := answer;
     ConnectButton.disconnect := inr tt;
     ConnectButton.isConnected := false;
     ConnectButton.isConnecting := false;
     ConnectButton.wallet := None |}.

Definition empty_error : Js.Value := Js.VError {| Js.message := "" |}.

(** A form asking to send nothing. *)
Definition amount_zero : TransferForm.State :=
  {| TransferForm.recipient := "11111111111111111111111111111111";
     TransferForm.amount := "0";
     TransferForm.status := "";
     TransferForm.loading := false |}.

Definition zero_instruction : TransactionInstruction :=
  SystemTransfer
    {| fromPubkey := Samples.payer;
       toPubkey := Samples.system_program;
       lamports := Js.Finite (0 # 1) |}.

Definition no_error : ConnectButton.State := {| ConnectButton.error := None |}.

End MoreSamples.

Example parseFloat_abc : Js.parseFloat "abc" = Js.NaN.
Proof. reflexivity. Qed.

Example parseFloat_half : Js.parseFloat "  0.5" = Js.Finite (1 # 2).
Proof. reflexivity. Qed.

Example parseFloat_exp : Js.parseFloat "-12.5e3xyz" = Js.Finite (-12500 # 1).
Proof. reflexivity. Qed.

Example parseFloat_dot : Js.parseFloat "." = Js.NaN.
Proof. reflexivity. Qed.

Example parseFloat_trailing_dot : Js.parseFloat "5." = Js.Finite (5 # 1).
Proof. reflexivity. Qed.

Example parseFloat_small : Js.parseFloat ".25e-1" = Js.Finite (1 # 40).
Proof. reflexivity. Qed.

Example system_program_key :
  Web3.reference_new_PublicKey "11111111111111111111111111111111"
  = inr {| Web3.toBase58 := "11111111111111111111111111111111" |}.
Proof. reflexivity. Qed.

Example short_key_rejected :
  Web3.reference_new_PublicKey "abc"
  = inl {| Js.message := "Invalid public key input" |}.
Proof. reflexivity. Qed.

Example foreign_character_rejected :
  Web3.reference_new_PublicKey "not a key"
  = inl {| Js.message := "Non-base58 character" |}.
Proof. reflexivity. Qed.

Example wrapped_sol_mint_key :
  Web3.reference_new_PublicKey "So11111111111111111111111111111111111111112"
  = inr {| Web3.toBase58 := "So11111111111111111111111111111111111111112" |}.
Proof. vm_compute. reflexivity. Qed.

(* ===================================================================== *)
(** ** The transfer form *)
(* ===================================================================== *)

Module TransferFormProofs.
Import Web3 Run React TransferForm.

Ltac unfold_handler :=
  unfold submit, run, handleTransfer, try_catch_finally, and_finally, try_catch,
    mbind, M_bind, bind, call, await, call_sendTransaction,
    setStatus, setLoading, setRecipient, setAmount, console_error, record;
  cbn [ui log fst snd app].

(** Splits a goal about a run of the handler along the paths of the
    handler: the guard, the two library calls, the awaited promise. *)
Ltac handler_paths lib hook form :=
  unfold_handler;
  destruct (publicKey hook) as [?pk|] eqn:?Hkey;
  [ destruct (connection hook) as [?conn|] eqn:?Hconn;
    [ destruct (new_PublicKey lib (recipient form)) as [?e|?toPk] eqn:?Hto;
      [ | destruct (SystemProgram_transfer lib _) as [?e|?ins] eqn:?Hins;
          [ | destruct (sendTransaction hook _) as [?sig|?reason|] eqn:?Hsend ] ]
    | ]
  | ];
  unfold add, new_Transaction in *; cbn [app] in *;
  cbn.

(** The events of an invocation do not depend on the log it starts from:
    they are appended to it. *)
Lemma handleTransfer_log_frame lib hook form (w : World) :
  handleTransfer lib hook form w =
  let r := run lib hook form (ui w) in
  (r.1, {| ui := ui r.2; log := log w ++ log r.2 |}).
Proof.
  destruct w as [st0 l0].
  handler_paths lib hook form; rewrite <- ?app_assoc; reflexivity.
Qed.

(** The state after an invocation is the replay of its log. *)
Lemma run_state_is_replay lib hook form st0 :
  ui (run lib hook form st0).2 = replay st0 (log (run lib hook form st0).2).
Proof.
  destruct st0.
  handler_paths lib hook form; reflexivity.
Qed.

(** No path of the handler passes an options object, hence no fee token,
    to the SDK's send function. *)
Lemma no_send_call_has_fee_token lib hook form st0 :
  Forall (fun args => fee_token args = None)
         (send_calls (log (run lib hook form st0).2)).
Proof.
  handler_paths lib hook form; repeat constructor.
Qed.

(** C1, evaluated on the code.  Submitting 0.1 SOL to a valid recipient
    with a connected wallet makes exactly one SDK call, whose arguments are
    the transaction with the single system-program transfer and the
    connection: the call carries no fee-token option. *)
Theorem transfer_call_carries_no_fee_token :
  send_calls
    (log (submit Web3.reference (Samples.connected (Resolves "5sig"))
            Samples.tenth_of_a_sol).2)
  = [[ArgTransaction Samples.tenth_transaction; ArgConnection Samples.devnet]]
  /\ fee_token
       [ArgTransaction Samples.tenth_transaction; ArgConnection Samples.devnet]
     = None.
Proof. split; vm_compute; reflexivity. Qed.

(** C2.  With the wallet connected, a recipient that [new PublicKey]
    rejects makes the handler throw before the SDK call: the exception is
    caught (the handler completes normally), the send function is never
    called, and the status is ["Error: "] followed by the exception's
    message. *)
Theorem invalid_recipient_reports_error lib hook form st0 pk conn e :
  publicKey hook = Some pk ->
  connection hook = Some conn ->
  new_PublicKey lib (recipient form) = inl e ->
  let r := run lib hook form st0 in
  r.1 = Normal tt
  /\ send_calls (log r.2) = []
  /\ status (ui r.2) = "Error: " +:+ Js.message e
  /\ log r.2 =
       [SetLoading true;
        SetStatus "Creating transaction...";
        ConsoleError "Transfer error:" (Js.VError e);
        SetStatus ("Error: " +:+ Js.message e);
        SetLoading false].
Proof.
  intros Hk Hc Hr. unfold_handler. rewrite Hk, Hc, Hr. cbn.
  repeat split.
Qed.

Lemma invalid_recipient_witness :
  let r := run Web3.reference (Samples.connected (Resolves "5sig"))
             Samples.bad_recipient Samples.bad_recipient in
  r.1 = Normal tt
  /\ send_calls (log r.2) = []
  /\ status (ui r.2) = "Error: Non-base58 character"
  /\ log r.2 =
       [SetLoading true;
        SetStatus "Creating transaction...";
        ConsoleError "Transfer error:"
          (Js.VError {| Js.message := "Non-base58 character" |});
        SetStatus "Error: Non-base58 character";
        SetLoading false].
Proof.
  apply (invalid_recipient_reports_error
           Web3.reference (Samples.connected (Resolves "5sig"))
           Samples.bad_recipient Samples.bad_recipient
           Samples.payer Samples.devnet
           {| Js.message := "Non-base58 character" |});
    reflexivity.
Defined.

(** C3.  Whenever the handler has called the SDK's send function and that
    call resolves with the signature [s], the status it leaves is
    ["Success! Transaction: "] followed by [s]. *)
Theorem success_shows_signature lib hook form st0 args s :
  args ∈ send_calls (log (run lib hook form st0).2) ->
  sendTransaction hook args = Resolves s ->
  (run lib hook form st0).1 = Normal tt
  /\ status (ui (run lib hook form st0).2) = "Success! Transaction: " +:+ s.
Proof.
  handler_paths lib hook form; intros Hin Hs;
    try (apply elem_of_nil in Hin; contradiction);
    apply list_elem_of_singleton in Hin; subst args;
    rewrite Hs in Hsend; try discriminate.
  injection Hsend as ->. split; reflexivity.
Qed.

Lemma success_shows_signature_witness :
  [ArgTransaction Samples.tenth_transaction; ArgConnection Samples.devnet]
    ∈ send_calls
        (log (run Web3.reference (Samples.connected (Resolves "5sig"))
                Samples.tenth_of_a_sol Samples.tenth_of_a_sol).2)
  /\ (run Web3.reference (Samples.connected (Resolves "5sig"))
        Samples.tenth_of_a_sol Samples.tenth_of_a_sol).1 = Normal tt
  /\ status
       (ui (run Web3.reference (Samples.connected (Resolves "5sig"))
              Samples.tenth_of_a_sol Samples.tenth_of_a_sol).2)
     = "Success! Transaction: 5sig".
Proof.
  split.
  - apply list_elem_of_singleton. reflexivity.
  - apply (success_shows_signature
             Web3.reference (Samples.connected (Resolves "5sig"))
             Samples.tenth_of_a_sol Samples.tenth_of_a_sol
             [ArgTransaction Samples.tenth_transaction;
              ArgConnection Samples.devnet] "5sig").
    + apply list_elem_of_singleton. reflexivity.
    + reflexivity.
Defined.

(** C4.  Without a public key the component renders the placeholder
    message alone, with no input and no button; with a public key it
    renders the form, with its two inputs and its send button. *)
Theorem disconnected_hides_form hook st :
  match publicKey hook with
  | None =>
      render hook st = placeholder_view
      /\ texts (render hook st) = ["Connect your wallet to send transfers"]
      /\ count_tag "input" (render hook st) = 0%nat
      /\ count_tag "button" (render hook st) = 0%nat
  | Some _ =>
      count_tag "input" (render hook st) = 2%nat
      /\ count_tag "button" (render hook st) = 1%nat
  end.
Proof.
  unfold render. destruct (publicKey hook).
  - unfold form_view. destruct (Js.truthy (status st)); split; reflexivity.
  - repeat split.
Qed.

(** C5, as the code has it.  An invocation either reaches an SDK call that
    resolves, and then leaves both fields empty, or it does not (guard,
    rejected recipient or instruction, rejected or unsettled call), and
    then leaves both fields as they were. *)
Theorem fields_reset_on_success_only lib hook form st0 :
  let r := run lib hook form st0 in
  ((exists args s,
       args ∈ send_calls (log r.2) /\ sendTransaction hook args = Resolves s)
   /\ recipient (ui r.2) = "" /\ amount (ui r.2) = "")
  \/
  ((forall args s,
       args ∈ send_calls (log r.2) -> sendTransaction hook args <> Resolves s)
   /\ recipient (ui r.2) = recipient st0 /\ amount (ui r.2) = amount st0).
Proof.
  handler_paths lib hook form;
    try (right; repeat split;
         intros args s Hin;
         first [ apply elem_of_nil in Hin; contradiction
               | apply list_elem_of_singleton in Hin; subst args; congruence ]).
  left. repeat split. exists [ArgTransaction [ins]; ArgConnection conn], sig.
  split; [apply list_elem_of_singleton; reflexivity | assumption].
Qed.

(** C5 fails as stated: when the SDK call is rejected, the submission
    leaves the recipient and the amount in place. *)
Lemma fields_survive_rejected_send :
  let r := submit Web3.reference
             (Samples.connected (Rejects Samples.user_rejected))
             Samples.tenth_of_a_sol in
  length (send_calls (log r.2)) = 1%nat
  /\ status (ui r.2) = "Error: User rejected the request"
  /\ recipient (ui r.2) = "11111111111111111111111111111111"
  /\ amount (ui r.2) = "0.1"
  /\ recipient (ui r.2) <> ""
  /\ amount (ui r.2) <> "".
Proof. vm_compute. repeat split; discriminate. Qed.

(** C7.  An invocation calls the SDK's send function at most once, and
    the outcome of that call is what the status shows: the signature when
    it resolves, the error message when it is rejected; while it stays
    unsettled the handler stays suspended on it. *)
Theorem single_send lib hook form st0 :
  let r := run lib hook form st0 in
  (length (send_calls (log r.2)) <= 1)%nat
  /\ Forall
       (fun args =>
          match sendTransaction hook args with
          | Resolves s =>
              r.1 = Normal tt
              /\ status (ui r.2) = "Success! Transaction: " +:+ s
          | Rejects v =>
              r.1 = Normal tt
              /\ status (ui r.2) = "Error: " +:+ Js.message_or v "Unknown error"
          | NeverSettles =>
              r.1 = Suspended
              /\ status (ui r.2) = "Sending transaction..."
          end)
       (send_calls (log r.2)).
Proof.
  handler_paths lib hook form; (split; [lia | ]);
    repeat constructor; rewrite Hsend; split; reflexivity.
Qed.

(** C8.  Past the guard, the first thing an invocation does is
    [setLoading(true)], the flag is still set at the SDK call, and an
    invocation that finishes has [setLoading(false)] as its last step and
    leaves the flag cleared, on the success path and on the error path
    alike.  The only invocations that do not finish are suspended on an
    SDK call that never settles. *)
Theorem loading_bracket lib hook form st0 pk conn :
  publicKey hook = Some pk ->
  connection hook = Some conn ->
  let r := run lib hook form st0 in
  head (log r.2) = Some (SetLoading true)
  /\ loading_at_sends st0 (log r.2) = true
  /\ ((r.1 = Normal tt
       /\ loading (ui r.2) = false
       /\ last (log r.2) = Some (SetLoading false))
      \/
      (r.1 = Suspended
       /\ exists args,
            args ∈ send_calls (log r.2)
            /\ sendTransaction hook args = NeverSettles)).
Proof.
  intros Hk Hc.
  handler_paths lib hook form; try discriminate;
    (split; [reflexivity | split; [reflexivity | ]]);
    try (left; repeat split; reflexivity).
  right. split; [reflexivity | ].
  eexists. split; [apply list_elem_of_singleton; reflexivity | exact Hsend].
Qed.

Lemma loading_bracket_witness :
  let r := run Web3.reference
             (Samples.connected (Rejects Samples.user_rejected))
             Samples.tenth_of_a_sol Samples.tenth_of_a_sol in
  head (log r.2) = Some (SetLoading true)
  /\ loading_at_sends Samples.tenth_of_a_sol (log r.2) = true
  /\ ((r.1 = Normal tt
       /\ loading (ui r.2) = false
       /\ last (log r.2) = Some (SetLoading false))
      \/
      (r.1 = Suspended
       /\ exists args,
            args ∈ send_calls (log r.2)
            /\ TransferForm.sendTransaction
                 (Samples.connected (Rejects Samples.user_rejected)) args
               = NeverSettles)).
Proof.
  apply (loading_bracket
           Web3.reference (Samples.connected (Rejects Samples.user_rejected))
           Samples.tenth_of_a_sol Samples.tenth_of_a_sol
           Samples.payer Samples.devnet);
    reflexivity.
Defined.

(** A fresh form cannot be submitted, nor can one whose submission is in
    flight, whatever its fields hold. *)
Lemma send_disabled_initially : send_disabled initial = true.
Proof. reflexivity. Qed.

Lemma send_disabled_in_flight : send_disabled Samples.in_flight = true.
Proof. reflexivity. Qed.

(** The disabled condition of the send button, spelled out. *)
Lemma send_disabled_false st :
  send_disabled st = false
  <-> loading st = false /\ recipient st <> "" /\ amount st <> "".
Proof.
  unfold send_disabled.
  destruct (loading st), (recipient st), (amount st); cbn;
    split; try discriminate; try (intros (? & ? & ?); congruence);
    repeat split; discriminate.
Qed.

(** C9, as the code has it.  The handler never checks the amount: it
    hands [parseFloat(amount) * LAMPORTS_PER_SOL] to the library, calls
    the send function with whatever instruction the library builds from
    it, and reports as an error whatever the library refuses, without a
    send call.  ["0"] is a non-empty amount that does not parse to a
    positive number and is sent all the same, also by a library that
    takes whole, non-negative lamports only.  The send button is enabled
    exactly when no submission is in flight and both strings are
    non-empty; nothing in its condition looks at the amount's value. *)
Theorem amount_passed_unchecked :
  (forall lib hook form st0 pk conn toPk ins,
      publicKey hook = Some pk ->
      connection hook = Some conn ->
      new_PublicKey lib (recipient form) = inr toPk ->
      SystemProgram_transfer lib
        {| fromPubkey := pk;
           toPubkey := toPk;
           lamports := Js.mul (Js.parseFloat (amount form)) LAMPORTS_PER_SOL |}
      = inr ins ->
      send_calls (log (run lib hook form st0).2)
      = [[ArgTransaction [ins]; ArgConnection conn]])
  /\ (forall lib hook form st0 pk conn toPk e,
        publicKey hook = Some pk ->
        connection hook = Some conn ->
        new_PublicKey lib (recipient form) = inr toPk ->
        SystemProgram_transfer lib
          {| fromPubkey := pk;
             toPubkey := toPk;
             lamports := Js.mul (Js.parseFloat (amount form)) LAMPORTS_PER_SOL |}
        = inl e ->
        send_calls (log (run lib hook form st0).2) = []
        /\ status (ui (run lib hook form st0).2) = "Error: " +:+ Js.message e)
  /\ ("0" <> ""
      /\ Js.parseFloat "0" = Js.Finite (0 # 1)
      /\ Js.is_positive (Js.parseFloat "0") = false
      /\ send_disabled MoreSamples.amount_zero = false
      /\ send_calls
           (log (submit MoreSamples.strict (Samples.connected (Resolves "5sig"))
                   MoreSamples.amount_zero).2)
         = [[ArgTransaction [MoreSamples.zero_instruction];
             ArgConnection Samples.devnet]])
  /\ (forall st,
        send_disabled st = false
        <-> loading st = false /\ recipient st <> "" /\ amount st <> "").
Proof.
  split; [ | split; [ | split ] ].
  - intros lib hook form st0 pk conn toPk ins Hk Hc Hto Hins.
    unfold_handler. rewrite Hk, Hc, Hto. cbn. rewrite Hins. cbn.
    destruct (sendTransaction hook _); reflexivity.
  - intros lib hook form st0 pk conn toPk e Hk Hc Hto Hins.
    unfold_handler. rewrite Hk, Hc, Hto. cbn. rewrite Hins. cbn.
    split; reflexivity.
  - repeat split; try discriminate; vm_compute; reflexivity.
  - exact send_disabled_false.
Qed.

(** C9 fails as stated, twice.  The send button is disabled while a
    submission is in flight although the recipient and the amount are both
    non-empty, so its condition asks for more than the two strings.  And
    ["abc"], which parses to NaN, is not sent by a library that takes whole
    lamports only: the handler ends with an error status and no send
    call. *)
Lemma amount_claim_overstated :
  (send_disabled Samples.in_flight = true
   /\ recipient Samples.in_flight <> ""
   /\ amount Samples.in_flight <> "")
  /\ (Js.parseFloat "abc" = Js.NaN
      /\ send_calls
           (log (submit MoreSamples.strict (Samples.connected (Resolves "5sig"))
                   Samples.amount_abc).2)
         = []
      /\ String.prefix "Error: "
           (status
              (ui (submit MoreSamples.strict
                     (Samples.connected (Resolves "5sig"))
                     Samples.amount_abc).2))
         = true).
Proof.
  split; repeat split; try discriminate; vm_compute; reflexivity.
Qed.

End TransferFormProofs.

(* ===================================================================== *)
(** ** The configuration *)
(* ===================================================================== *)

Module ConfigProofs.
Import Config.

Lemma or_else_nonempty v d : v <> "" -> Js.or_else (Some v) d = v.
Proof. destruct v; [congruence | reflexivity]. Qed.

Lemma or_else_fallback o d : o = None \/ o = Some "" -> Js.or_else o d = d.
Proof. intros [-> | ->]; reflexivity. Qed.

(** With no variable bound, the configuration is the devnet one. *)
Lemma default_config_is_devnet :
  let c := LAZORKIT_CONFIG ∅ in
  rpcUrl c = net_rpcUrl NETWORK_CONFIG_devnet
  /\ portalUrl c = net_portalUrl NETWORK_CONFIG_devnet
  /\ paymasterUrl (paymasterConfig c) = net_paymasterUrl NETWORK_CONFIG_devnet.
Proof. cbn. rewrite !lookup_empty. repeat split. Qed.

(** C6, as the code has it.  Each endpoint is the value of its variable
    when the variable is bound to a non-empty string, and the literal when
    the variable is unbound or bound to the empty string. *)
Theorem config_fallbacks (env : gmap string string) :
  let c := LAZORKIT_CONFIG env in
  ((forall v, env !! "NEXT_PUBLIC_RPC_URL" = Some v -> v <> "" -> rpcUrl c = v)
   /\ (env !! "NEXT_PUBLIC_RPC_URL" = None
       \/ env !! "NEXT_PUBLIC_RPC_URL" = Some "" ->
       rpcUrl c = "https://api.devnet.solana.com"))
  /\ ((forall v,
          env !! "NEXT_PUBLIC_PORTAL_URL" = Some v -> v <> "" -> portalUrl c = v)
      /\ (env !! "NEXT_PUBLIC_PORTAL_URL" = None
          \/ env !! "NEXT_PUBLIC_PORTAL_URL" = Some "" ->
          portalUrl c = "https://portal.lazor.sh"))
  /\ ((forall v,
          env !! "NEXT_PUBLIC_PAYMASTER_URL" = Some v -> v <> "" ->
          paymasterUrl (paymasterConfig c) = v)
      /\ (env !! "NEXT_PUBLIC_PAYMASTER_URL" = None
          \/ env !! "NEXT_PUBLIC_PAYMASTER_URL" = Some "" ->
          paymasterUrl (paymasterConfig c) = "https://kora.devnet.lazorkit.com")).
Proof.
  cbn. repeat split;
    first [ intros v -> Hv; apply or_else_nonempty; exact Hv
          | intros H; apply or_else_fallback; exact H ].
Qed.

(** C6 fails as stated: a variable bound to the empty string does not give
    its value to the endpoint, the literal is used. *)
Lemma empty_variable_falls_back :
  let env : gmap string string := <["NEXT_PUBLIC_RPC_URL" := ""]> ∅ in
  env !! "NEXT_PUBLIC_RPC_URL" = Some ""
  /\ bound_or (env !! "NEXT_PUBLIC_RPC_URL") "https://api.devnet.solana.com" = ""
  /\ rpcUrl (LAZORKIT_CONFIG env) = "https://api.devnet.solana.com"
  /\ rpcUrl (LAZORKIT_CONFIG env)
     <> bound_or (env !! "NEXT_PUBLIC_RPC_URL") "https://api.devnet.solana.com".
Proof.
  cbn zeta. unfold LAZORKIT_CONFIG. cbn [rpcUrl].
  rewrite lookup_insert_eq. cbn.
  repeat split. discriminate.
Qed.

End ConfigProofs.

(* ===================================================================== *)
(** ** The connect button *)
(* ===================================================================== *)

Module ConnectButtonProofs.
Import Run React ConnectButton.

(** A failed connection is surfaced: the error state takes the message of
    the rejection, or the stock text when the rejection is not an [Error]. *)
Lemma connect_failure_sets_error hook st0 v :
  connect hook = Rejects v ->
  let r := handleConnect hook {| ui := st0; log := [] |} in
  r.1 = Normal tt
  /\ error (ui r.2) = Some (Js.message_or v "Failed to connect wallet")
  /\ set_error_calls (log r.2)
     = [None; Some (Js.message_or v "Failed to connect wallet")].
Proof.
  intros Hc.
  unfold handleConnect, try_catch, mbind, M_bind, bind, call_connect, await,
    setError, console_error, record.
  cbn [ui log app]. rewrite Hc. cbn. repeat split.
Qed.

(** C10.  [handleDisconnect] always completes.  When [disconnect()]
    throws, the exception goes to the console only: [setError] is not
    called, the error state is what it was, and so is whatever the
    component renders from it.  When [disconnect()] returns, the error
    state is set to null. *)
Theorem disconnect_errors_not_surfaced hook st0 :
  let r := handleDisconnect hook {| ui := st0; log := [] |} in
  r.1 = Normal tt
  /\ match disconnect hook with
     | inl v =>
         ui r.2 = st0
         /\ set_error_calls (log r.2) = []
         /\ log r.2 = [CallDisconnect; ConsoleError "Disconnection error:" v]
         /\ (forall h, render h (ui r.2) = render h st0)
     | inr _ =>
         error (ui r.2) = None
         /\ log r.2 = [CallDisconnect; SetError None]
     end.
Proof.
  unfold handleDisconnect, try_catch, mbind, M_bind, bind, call_disconnect,
    invoke, setError, console_error, record.
  cbn [ui log app].
  destruct (disconnect hook) as [v | []]; cbn; repeat split.
Qed.

End ConnectButtonProofs.

(* ===================================================================== *)
(** ** The transfer form: the remaining paths, and what is rendered after *)
(* ===================================================================== *)

Module TransferFormMore.
Import Web3 Run React TransferForm Inspect TransferLog.
Import TransferFormProofs.

(** X1.  Without a public key or without a connection, [handleTransfer]
    does one thing: it sets the status to the connect-first message.  The
    loading flag and both fields stay as they were and the SDK is not
    called. *)
Theorem guard_only_sets_status lib hook form st0 :
  publicKey hook = None \/ connection hook = None ->
  run lib hook form st0 =
  (Normal tt,
   {| ui := {| recipient := recipient st0;
               amount := amount st0;
               status := "Please connect your wallet first";
               loading := loading st0 |};
      log := [SetStatus "Please connect your wallet first"] |}).
Proof.
  intros [H | H]; unfold_handler; rewrite H;
    [ | destruct (publicKey hook) ]; reflexivity.
Qed.

Lemma guard_only_sets_status_witness :
  count_tag "button" (render MoreSamples.no_connection Samples.tenth_of_a_sol)
  = 1%nat
  /\ submit Web3.reference MoreSamples.no_connection Samples.tenth_of_a_sol =
     (Normal tt,
      {| ui := {| recipient := "11111111111111111111111111111111";
                  amount := "0.1";
                  status := "Please connect your wallet first";
                  loading := false |};
         log := [SetStatus "Please connect your wallet first"] |}).
Proof.
  split; [reflexivity | ].
  apply (guard_only_sets_status
           Web3.reference MoreSamples.no_connection
           Samples.tenth_of_a_sol Samples.tenth_of_a_sol).
  right. reflexivity.
Defined.

(** X2.  When the library refuses to build the transfer instruction, the
    handler stops there: the status never reaches ["Sending
    transaction..."], the SDK is not called, the status shows the
    library's message, the loading flag is cleared and both fields stay as
    they were. *)
Theorem rejected_instruction_reports_error lib hook form st0 pk conn toPk e :
  publicKey hook = Some pk ->
  connection hook = Some conn ->
  new_PublicKey lib (recipient form) = inr toPk ->
  SystemProgram_transfer lib
    {| fromPubkey := pk;
       toPubkey := toPk;
       lamports := Js.mul (Js.parseFloat (amount form)) LAMPORTS_PER_SOL |}
  = inl e ->
  run lib hook form st0 =
  (Normal tt,
   {| ui := {| recipient := recipient st0;
               amount := amount st0;
               status := "Error: " +:+ Js.message e;
               loading := false |};
      log := [SetLoading true;
              SetStatus "Creating transaction...";
              ConsoleError "Transfer error:" (Js.VError e);
              SetStatus ("Error: " +:+ Js.message e);
              SetLoading false] |}).
Proof.
  intros Hk Hc Hto Hins. unfold_handler. rewrite Hk, Hc, Hto. cbn.
  rewrite Hins. reflexivity.
Qed.

Lemma rejected_instruction_witness :
  submit MoreSamples.strict (Samples.connected (Resolves "5sig"))
    Samples.amount_abc =
  (Normal tt,
   {| ui := {| recipient := "11111111111111111111111111111111";
               amount := "abc";
               status := "Error: The number cannot be converted to a BigInt because it is not an integer";
               loading := false |};
      log := [SetLoading true;
              SetStatus "Creating transaction...";
              ConsoleError "Transfer error:"
                (Js.VError {| Js.message := "The number cannot be converted to a BigInt because it is not an integer" |});
              SetStatus "Error: The number cannot be converted to a BigInt because it is not an integer";
              SetLoading false] |}).
Proof.
  apply (rejected_instruction_reports_error
           MoreSamples.strict (Samples.connected (Resolves "5sig"))
           Samples.amount_abc Samples.amount_abc
           Samples.payer Samples.devnet Samples.system_program
           {| Js.message := "The number cannot be converted to a BigInt because it is not an integer" |});
    reflexivity.
Defined.

(** X3.  No exception leaves [handleTransfer]: an invocation completes
    normally or stays suspended on the SDK's promise.  It writes to the
    console at most once, under the label ["Transfer error:"], and exactly
    the value it writes is the one whose message the status shows. *)
Theorem exceptions_are_caught_and_shown lib hook form st0 :
  let r := run lib hook form st0 in
  (r.1 = Normal tt \/ r.1 = Suspended)
  /\ match console_errors (log r.2) with
     | [] => True
     | [(label, v)] =>
         label = "Transfer error:"
         /\ r.1 = Normal tt
         /\ status (ui r.2) = "Error: " +:+ Js.message_or v "Unknown error"
     | _ => False
     end.
Proof.
  handler_paths lib hook form; split; auto.
Qed.

(** X4.  Every invocation leaves a non-empty status, so the form rendered
    from the state it leaves always has the status banner, and the banner
    holds that status. *)
Theorem status_banner_after_invocation lib hook form st0 :
  let st := ui (run lib hook form st0).2 in
  Js.truthy (status st) = true
  /\ count_tag "p" (form_view st) = 1%nat
  /\ last (texts (form_view st)) = Some (status st).
Proof.
  handler_paths lib hook form; repeat split.
Qed.

(** X5.  While a submission is suspended on the SDK's promise, the form
    rendered from the state it has reached cannot be used: both inputs and
    the send button are disabled, the button reads ["Processing..."] and
    the status reads ["Sending transaction..."]. *)
Theorem in_flight_form_is_locked lib hook form st0 :
  (run lib hook form st0).1 = Suspended ->
  let st := ui (run lib hook form st0).2 in
  let view := render hook st in
  loading st = true
  /\ status st = "Sending transaction..."
  /\ disabled_of "input" view = [true; true]
  /\ disabled_of "button" view = [true]
  /\ has_text "Processing..." view = true
  /\ has_text "Send Transfer" view = false.
Proof.
  unfold render.
  handler_paths lib hook form; try discriminate.
  intros _. repeat split.
Qed.

Lemma in_flight_form_is_locked_witness :
  let r := submit Web3.reference (Samples.connected NeverSettles)
             Samples.tenth_of_a_sol in
  let view := render (Samples.connected NeverSettles) (ui r.2) in
  loading (ui r.2) = true
  /\ status (ui r.2) = "Sending transaction..."
  /\ disabled_of "input" view = [true; true]
  /\ disabled_of "button" view = [true]
  /\ has_text "Processing..." view = true
  /\ has_text "Send Transfer" view = false.
Proof.
  apply (in_flight_form_is_locked
           Web3.reference (Samples.connected NeverSettles)
           Samples.tenth_of_a_sol Samples.tenth_of_a_sol).
  reflexivity.
Defined.

(** X6.  After a submission whose SDK call resolved, the form rendered
    from the state it leaves shows two empty, enabled inputs and a send
    button that is disabled again (nothing is left to send), under a
    banner in the success colour. *)
Theorem form_after_success lib hook form st0 args s :
  args ∈ send_calls (log (run lib hook form st0).2) ->
  sendTransaction hook args = Resolves s ->
  let view := render hook (ui (run lib hook form st0).2) in
  value_of "input" view = [""; ""]
  /\ disabled_of "input" view = [false; false]
  /\ disabled_of "button" view = [true]
  /\ last (class_of "div" view) = Some ("p-3 rounded-lg " +:+ green).
Proof.
  unfold render.
  handler_paths lib hook form; intros Hin Hs;
    try (apply elem_of_nil in Hin; contradiction);
    apply list_elem_of_singleton in Hin; subst args;
    rewrite Hs in Hsend; try discriminate.
  repeat split.
Qed.

Lemma form_after_success_witness :
  let r := submit Web3.reference (Samples.connected (Resolves "5sig"))
             Samples.tenth_of_a_sol in
  let view := render (Samples.connected (Resolves "5sig")) (ui r.2) in
  value_of "input" view = [""; ""]
  /\ disabled_of "input" view = [false; false]
  /\ disabled_of "button" view = [true]
  /\ last (class_of "div" view) = Some ("p-3 rounded-lg " +:+ green).
Proof.
  apply (form_after_success
           Web3.reference (Samples.connected (Resolves "5sig"))
           Samples.tenth_of_a_sol Samples.tenth_of_a_sol
           [ArgTransaction Samples.tenth_transaction;
            ArgConnection Samples.devnet] "5sig").
  - apply list_elem_of_singleton. reflexivity.
  - reflexivity.
Defined.

(** X7.  A submission past the guard that finishes without a resolved SDK
    call leaves the form ready for another try: the inputs still hold what
    was submitted and are enabled, and the send button is disabled only if
    one of the two fields is empty. *)
Theorem form_after_failure lib hook form pk conn :
  publicKey hook = Some pk ->
  connection hook = Some conn ->
  (submit lib hook form).1 = Normal tt ->
  (forall args s,
      args ∈ send_calls (log (submit lib hook form).2) ->
      sendTransaction hook args <> Resolves s) ->
  let view := render hook (ui (submit lib hook form).2) in
  value_of "input" view = [recipient form; amount form]
  /\ disabled_of "input" view = [false; false]
  /\ disabled_of "button" view
     = [negb (Js.truthy (recipient form)) || negb (Js.truthy (amount form))].
Proof.
  unfold render.
  intros Hk Hc. handler_paths lib hook form; try discriminate;
    intros Hdone Hno; try discriminate; try (repeat split; fail).
  exfalso. eapply Hno; [apply list_elem_of_singleton; reflexivity | exact Hsend].
Qed.

Lemma form_after_failure_witness :
  let hook := Samples.connected (Rejects Samples.user_rejected) in
  let view :=
    render hook (ui (submit Web3.reference hook Samples.tenth_of_a_sol).2) in
  value_of "input" view = ["11111111111111111111111111111111"; "0.1"]
  /\ disabled_of "input" view = [false; false]
  /\ disabled_of "button" view = [false].
Proof.
  apply (form_after_failure
           Web3.reference (Samples.connected (Rejects Samples.user_rejected))
           Samples.tenth_of_a_sol Samples.payer Samples.devnet);
    try reflexivity.
  intros args s Hin. apply list_elem_of_singleton in Hin. subst args.
  discriminate.
Defined.

(** The banner's test for ["Success"] looks at the whole status, and an
    error status has it exactly when the message has it. *)
Lemma includes_Success_in_error m :
  Js.includes "Success" ("Error: " +:+ m) = Js.includes "Success" m.
Proof. reflexivity. Qed.

(** X8.  The banner takes the success colour whenever the status contains
    ["Success"], and that test comes first: a success status is green, and
    an error status is red unless the error's message itself contains
    ["Success"], in which case it is green as well. *)
Theorem banner_colour m s :
  status_class ("Success! Transaction: " +:+ s) = "p-3 rounded-lg " +:+ green
  /\ status_class ("Error: " +:+ m)
     = "p-3 rounded-lg " +:+ (if Js.includes "Success" m then green else red)
  /\ (forall st,
        Js.truthy (status st) = true ->
        last (class_of "div" (form_view st)) = Some (status_class (status st))).
Proof.
  split; [reflexivity | split].
  - unfold status_class. rewrite includes_Success_in_error.
    destruct (Js.includes "Success" m); reflexivity.
  - intros st Hs. unfold form_view. rewrite Hs. reflexivity.
Qed.

End TransferFormMore.

(* ===================================================================== *)
(** ** The connect button: connecting, and what is rendered *)
(* ===================================================================== *)

Module ConnectButtonMore.
Import Run React ConnectButton Inspect.

Ltac unfold_connect :=
  unfold handleConnect, try_catch, mbind, M_bind, bind, call_connect, await,
    setError, console_error, record;
  cbn [ui log app].

(** X10.  [handleConnect] first clears the error, then calls [connect]
    once.  If the promise resolves nothing else happens; if it is rejected
    the rejection goes to the console and the error becomes its message, or
    ["Failed to connect wallet"] when it is not an [Error]; if it never
    settles the handler stays suspended with the error cleared.  No
    exception leaves the handler. *)
Theorem connect_outcomes hook st0 :
  handleConnect hook {| ui := st0; log := [] |} =
  match connect hook with
  | Resolves _ =>
      (Normal tt,
       {| ui := {| error := None |}; log := [SetError None; CallConnect] |})
  | Rejects v =>
      (Normal tt,
       {| ui := {| error := Some (Js.message_or v "Failed to connect wallet") |};
          log := [SetError None;
                  CallConnect;
                  ConsoleError "Connection error:" v;
                  SetError (Some (Js.message_or v "Failed to connect wallet"))] |})
  | NeverSettles =>
      (Suspended,
       {| ui := {| error := None |}; log := [SetError None; CallConnect] |})
  end.
Proof.
  unfold_connect.
  destruct (connect hook) as [[] | v | ]; reflexivity.
Qed.

Lemma substring_prefix_length n :
  forall s, String.length (substring 0 n s) = Nat.min n (String.length s).
Proof.
  induction n as [ | n IH]; intros [ | c s]; cbn; try reflexivity.
  now rewrite IH.
Qed.

Lemma substring_is_prefix n :
  forall s, String.prefix (substring 0 n s) s = true.
Proof.
  induction n as [ | n IH]; intros [ | c s]; cbn; try reflexivity.
  destruct (ascii_dec c c); [apply IH | congruence].
Qed.

Lemma substring_whole n :
  forall s, (String.length s <= n)%nat -> substring 0 n s = s.
Proof.
  induction n as [ | n IH]; intros [ | c s] H; cbn in *; try reflexivity;
    try lia.
  f_equal. apply IH. lia.
Qed.

Lemma string_length_app (a b : string) :
  String.length (a +:+ b) = (String.length a + String.length b)%nat.
Proof.
  induction a as [ | c a IH]; [reflexivity | ].
  change (S (String.length (a +:+ b)) = S (String.length a + String.length b)).
  now rewrite IH.
Qed.

Lemma substring_is_suffix s :
  forall k n,
    (String.length s <= k + n)%nat ->
    exists p, s = p +:+ substring k n s
              /\ String.length p = Nat.min k (String.length s).
Proof.
  induction s as [ | c s IH]; intros k n H.
  - exists "". destruct k, n; split; reflexivity.
  - destruct k as [ | k].
    + exists "". rewrite substring_whole by exact H. split; reflexivity.
    + destruct (IH k n) as (p & Hp & Hl); [cbn in H; lia | ].
      exists (String c p). split.
      * change (String c s = String c (p +:+ substring k n s)).
        now rewrite <- Hp.
      * change (S (String.length p) = S (Nat.min k (String.length s))).
        now rewrite Hl.
Qed.

Lemma slice_to_length n s :
  String.length (Js.slice_to n s) = Nat.min n (String.length s).
Proof. apply substring_prefix_length. Qed.

Lemma slice_last_is_suffix n s :
  exists p, s = p +:+ Js.slice_last n s
            /\ String.length p = (String.length s - n)%nat.
Proof.
  destruct (substring_is_suffix s (String.length s - n) n) as (p & Hp & Hl);
    [lia | ].
  exists p. split; [exact Hp | lia].
Qed.

Lemma slice_last_length n s :
  String.length (Js.slice_last n s) = Nat.min n (String.length s).
Proof.
  destruct (slice_last_is_suffix n s) as (p & Hp & Hl).
  apply (f_equal String.length) in Hp. rewrite string_length_app in Hp. lia.
Qed.

Lemma short_is_not_the_banner_title s :
  (String.length s <= 4)%nat -> String.eqb "Connection Failed" s = false.
Proof.
  intros H. apply String.eqb_neq. intros <-. cbn in H. lia.
Qed.

(** X11.  A connected wallet is shown by the first four characters of its
    address, three dots and the last four characters; an address of four
    characters or fewer is shown whole on both sides of the dots. *)
Theorem address_is_abbreviated w :
  let s := smartWallet w in
  let front := Js.slice_to 4 s in
  let back := Js.slice_last 4 s in
  texts (connected_view w) = [front; "..."; back; "Disconnect Wallet"]
  /\ String.prefix front s = true
  /\ String.length front = Nat.min 4 (String.length s)
  /\ (exists p, s = p +:+ back)
  /\ String.length back = Nat.min 4 (String.length s)
  /\ ((String.length s <= 4)%nat -> front = s /\ back = s).
Proof.
  cbn zeta.
  destruct (slice_last_is_suffix 4 (smartWallet w)) as (p & Hp & _).
  split; [reflexivity | ].
  split; [apply substring_is_prefix | ].
  split; [apply slice_to_length | ].
  split; [exists p; exact Hp | ].
  split; [apply slice_last_length | ].
  intros Hs. unfold Js.slice_to, Js.slice_last.
  split; [apply substring_whole; exact Hs | ].
  replace (String.length (smartWallet w) - 4)%nat with 0%nat by lia.
  apply substring_whole; exact Hs.
Qed.

Lemma connected_view_has_no_banner w :
  has_text "Connection Failed" (connected_view w) = false.
Proof.
  pose proof (slice_to_length 4 (smartWallet w)) as Hf.
  pose proof (slice_last_length 4 (smartWallet w)) as Hb.
  unfold has_text.
  change (texts (connected_view w))
    with [Js.slice_to 4 (smartWallet w); "...";
          Js.slice_last 4 (smartWallet w); "Disconnect Wallet"].
  cbn [existsb].
  rewrite (short_is_not_the_banner_title (Js.slice_to 4 (smartWallet w)))
    by lia.
  rewrite (short_is_not_the_banner_title (Js.slice_last 4 (smartWallet w)))
    by lia.
  reflexivity.
Qed.

(** X12.  In every state the component renders exactly one button.  It is
    the disconnect button, never disabled, when the hook reports a
    connection and a wallet; otherwise it is the connect button, disabled
    exactly while the hook is connecting.  The error banner appears only
    beside the connect button, and only for an error that is a non-empty
    string. *)
Theorem one_button_for_the_state hook st :
  let view := render hook st in
  let connected :=
    match wallet hook with
    | Some _ => isConnected hook
    | None => false
    end in
  count_tag "button" view = 1%nat
  /\ onClick_of "button" view
     = [if connected then "handleDisconnect" else "handleConnect"]
  /\ disabled_of "button" view
     = (if connected then [] else [isConnecting hook])
  /\ has_text "Connection Failed" view
     = (if connected then false
        else match error st with
             | Some m => Js.truthy m
             | None => false
             end).
Proof.
  cbn zeta. unfold render.
  destruct (isConnected hook), (wallet hook) as [w | ].
  - split; [reflexivity | split; [reflexivity | split; [reflexivity | ]]].
    apply connected_view_has_no_banner.
  - unfold disconnected_view, error_banner.
    destruct (isConnecting hook), (error st) as [[ | c m] | ];
      repeat split.
  - unfold disconnected_view, error_banner.
    destruct (isConnecting hook), (error st) as [[ | c m] | ];
      repeat split.
  - unfold disconnected_view, error_banner.
    destruct (isConnecting hook), (error st) as [[ | c m] | ];
      repeat split.
Qed.

(** X13.  After [handleConnect], the connect view shows the failure banner
    exactly when the connection was rejected with a non-empty message: a
    rejection that is not an [Error] always shows it (with the stock
    text), an [Error] with an empty message shows nothing, and so does a
    connection that resolved or is still pending. *)
Theorem failure_banner_after_connect hook st0 :
  let r := handleConnect hook {| ui := st0; log := [] |} in
  has_text "Connection Failed" (disconnected_view hook (ui r.2))
  = match connect hook with
    | Rejects v => Js.truthy (Js.message_or v "Failed to connect wallet")
    | _ => false
    end.
Proof.
  cbn zeta. unfold_connect.
  unfold disconnected_view, error_banner.
  destruct (connect hook) as [[] | v | ]; cbn [ui error snd].
  - destruct (isConnecting hook); reflexivity.
  - destruct (Js.message_or v "Failed to connect wallet") as [ | c m];
      destruct (isConnecting hook); reflexivity.
  - destruct (isConnecting hook); reflexivity.
Qed.

End ConnectButtonMore.

(* ===================================================================== *)
(** ** The configuration as the provider gets it *)
(* ===================================================================== *)

Module ProvidersProofs.
Import Config.

Lemma or_else_truthy o d : Js.truthy d = true -> Js.truthy (Js.or_else o d) = true.
Proof.
  intros Hd. destruct o as [[ | c s] | ]; cbn; try exact Hd. reflexivity.
Qed.

(** X14.  Whatever the environment holds, the provider is given three
    non-empty endpoints, and the children it was given. *)
Theorem provider_endpoints_never_empty env children :
  let p := Providers.Providers env children in
  Js.truthy (Providers.rpcUrl p) = true
  /\ Js.truthy (Providers.portalUrl p) = true
  /\ Js.truthy (paymasterUrl (Providers.paymasterConfig p)) = true
  /\ Providers.children p = children.
Proof.
  cbn. repeat split; apply or_else_truthy; reflexivity.
Qed.

(** X15.  The configuration reads its three variables and nothing else:
    binding or removing any other variable leaves it as it was. *)
Theorem config_reads_three_variables (env : gmap string string) k v :
  k <> "NEXT_PUBLIC_RPC_URL" ->
  k <> "NEXT_PUBLIC_PORTAL_URL" ->
  k <> "NEXT_PUBLIC_PAYMASTER_URL" ->
  LAZORKIT_CONFIG (<[k := v]> env) = LAZORKIT_CONFIG env
  /\ LAZORKIT_CONFIG (delete k env) = LAZORKIT_CONFIG env.
Proof.
  intros H1 H2 H3. unfold LAZORKIT_CONFIG.
  rewrite !lookup_insert_ne, !lookup_delete_ne by congruence.
  split; reflexivity.
Qed.

Lemma config_reads_three_variables_witness :
  LAZORKIT_CONFIG
    (<["NODE_ENV" := "production"]>
       (<["NEXT_PUBLIC_RPC_URL" := "https://rpc.example"]> ∅))
  = LAZORKIT_CONFIG (<["NEXT_PUBLIC_RPC_URL" := "https://rpc.example"]> ∅)
  /\ LAZORKIT_CONFIG
       (delete "NODE_ENV" (<["NEXT_PUBLIC_RPC_URL" := "https://rpc.example"]> ∅))
     = LAZORKIT_CONFIG (<["NEXT_PUBLIC_RPC_URL" := "https://rpc.example"]> ∅).
Proof.
  apply (config_reads_three_variables
           (<["NEXT_PUBLIC_RPC_URL" := "https://rpc.example"]> ∅)
           "NODE_ENV" "production");
    discriminate.
Defined.

End ProvidersProofs.
